(** * The Python SDK stubs [authvader_sdk] and [authvital_sdk]

    Both packages consist of one file, [__init__.py], which binds a
    docstring, [__version__], [__author__] and a module-level [__getattr__]
    (PEP 562) that raises [NotImplementedError].

    The embedding is shallow: a Python function is a Rocq function in a
    small state-and-exception monad over the namespace (the [__dict__]) of
    the module it lives in; the body of [__init__.py] is a computation in
    the same monad; attribute access on a module object follows CPython's
    [module_getattro]. *)

From stdpp Require Import gmap strings.

Open Scope string_scope.

(** ** Python values, exceptions and the monad *)

Module Py.

(** The function objects that the two packages create with [def]. A
    function object is named by the [def] that makes it: the identity of
    the object is not part of a value, so the same constant stands for
    every function object that one [def] creates. *)
Inductive function :=
| authvader_getattr
| authvital_getattr.

(** The values that can sit in a module namespace. [VObject] stands for
    an interpreter object this development never looks into (a loader, a
    module spec, a class, a bound method), named by a description. *)
Inductive value :=
| VNone
| VStr (s : string)
| VFunction (f : function)
| VObject (what : string).

Inductive exn :=
| NotImplementedError (msg : string)
| AttributeError (attr : string)
| TypeError (msg : string).

Inductive result (A : Type) :=
| Return (a : A)
| Raise (e : exn).
Arguments Return {A} a.
Arguments Raise {A} e.

(** A computation runs in the namespace of its module (its globals) and
    gives a result together with the namespace it leaves behind. *)
Definition M (A : Type) : Type :=
  gmap string value -> result A * gmap string value.

Definition ret {A} (a : A) : M A := fun g => (Return a, g).

Definition raise {A} (e : exn) : M A := fun g => (Raise e, g).

Definition bind {A B} (c : M A) (k : A -> M B) : M B :=
  fun g =>
    match c g with
    | (Return a, g') => k a g'
    | (Raise e, g') => (Raise e, g')
    end.

(** [name = v] at module level. *)
Definition store (name : string) (v : value) : M unit :=
  fun g => (Return tt, <[name := v]> g).

(** The namespace a module body leaves behind. *)
Definition exec (body : M unit) (g : gmap string value) : gmap string value :=
  snd (body g).

(** *** f-strings

    An f-string is a sequence of literal text and replacement fields; a
    field is evaluated in the local environment of the function. *)
Inductive fpart (Env : Type) :=
| FText (s : string)
| FField (e : Env -> string).
Arguments FText {Env} s.
Arguments FField {Env} e.

Fixpoint format {Env} (parts : list (fpart Env)) (env : Env) : string :=
  match parts with
  | [] => ""
  | FText s :: rest => s ++ format rest env
  | FField e :: rest => e env ++ format rest env
  end.

Definition is_text {Env} (p : fpart Env) : bool :=
  match p with
  | FText _ => true
  | FField _ => false
  end.

(** *** Attribute access on a module object

    What the type of module objects ([types.ModuleType], with its base
    [object]) supplies for a name. A data descriptor wins over the
    namespace, anything else the type has loses to it. [LazyData] is the
    data descriptor of [__annotations__]: its getter returns what the
    namespace holds under the name and, when the namespace has nothing
    there, stores a new value under the name and returns that. *)
Inductive descr :=
| DataDescr (get : gmap string value -> value)
| LazyData (init : value)
| NonData (get : gmap string value -> value).

(** The attributes that the type supplies in CPython 3.11 to 3.13:
    [__class__] and [__dict__] are data descriptors, [__annotations__] is
    the lazy one, the others are methods and the docstring of the type.
    Other versions differ in this list ([__annotations__] is supplied
    from 3.10 on, [__getstate__] from 3.11 on), so the theorems below are
    stated for every lookup function of the type. *)
Definition PyModule_Type (name : string) : option descr :=
  if decide (name = "__class__") then
    Some (DataDescr (fun _ => VObject "<class 'module'>"))
  else if decide (name = "__dict__") then
    Some (DataDescr (fun _ => VObject "the namespace of the module"))
  else if decide (name = "__annotations__") then
    Some (LazyData (VObject "{}"))
  else if decide (name = "__doc__") then
    Some (NonData (fun _ => VObject "the docstring of the module type"))
  else if decide (name ∈ ["__delattr__"; "__dir__"; "__eq__"; "__format__";
                           "__ge__"; "__getattribute__"; "__getstate__";
                           "__gt__"; "__hash__"; "__init__";
                           "__init_subclass__"; "__le__"; "__lt__"; "__ne__";
                           "__new__"; "__reduce__"; "__reduce_ex__";
                           "__repr__"; "__setattr__"; "__sizeof__";
                           "__str__"; "__subclasshook__"]) then
    Some (NonData (fun _ => VObject ("method " ++ name)))
  else None.

Section module_getattro.
Variable type_lookup : string -> option descr.
Variable call : function -> string -> M value.

(** The generic lookup: data descriptor of the type, then the
    namespace, then the rest of the type. *)
Definition generic_getattr (name : string) : M value :=
  fun g =>
    match type_lookup name with
    | Some (DataDescr get) => (Return (get g), g)
    | Some (LazyData init) =>
        match g !! name with
        | Some v => (Return v, g)
        | None => (Return init, <[name := init]> g)
        end
    | Some (NonData get) =>
        match g !! name with
        | Some v => (Return v, g)
        | None => (Return (get g), g)
        end
    | None =>
        match g !! name with
        | Some v => (Return v, g)
        | None => (Raise (AttributeError name), g)
        end
    end.

(** [module.name]: the generic lookup, and only when that fails with
    [AttributeError] the [__getattr__] found in the namespace. *)
Definition module_getattro (name : string) : M value :=
  fun g =>
    match generic_getattr name g with
    | (Raise (AttributeError _), g') =>
        match g' !! "__getattr__" with
        | Some (VFunction f) => call f name g'
        | Some _ => (Raise (TypeError "object is not callable"), g')
        | None => (Raise (AttributeError name), g')
        end
    | found => found
    end.
End module_getattro.

End Py.

Import Py.

Definition nl : string := String (Ascii.ascii_of_nat 10) "".

(** ** sdks/python/authvader_sdk/__init__.py *)

Module authvader_sdk.

Definition __doc__ : string :=
  nl ++ "AuthVader SDK for Python" ++ nl ++
  nl ++ "Official Python SDK for AuthVader Identity Platform." ++
  nl ++ "https://github.com/authvader/authvader" ++ nl ++
  nl ++ "Status: Coming Soon" ++ nl.

Definition __version__ : string := "0.0.1".

Definition __author__ : string := "AuthVader Contributors".

Definition __getattr__ (name : string) : M value :=
  raise (NotImplementedError
           (format [FText "AuthVader Python SDK is coming soon! "] name ++
            format [FText "Follow https://github.com/authvader/authvader for updates."] name)).

(** The module body, run once at import in the namespace that the import
    system has prepared. *)
Definition __init__ : M unit :=
  bind (store "__doc__" (VStr __doc__)) (fun _ =>
  bind (store "__version__" (VStr __version__)) (fun _ =>
  bind (store "__author__" (VStr __author__)) (fun _ =>
  store "__getattr__" (VFunction authvader_getattr)))).

End authvader_sdk.

(** ** sdks/python/authvital_sdk/__init__.py *)

Module authvital_sdk.

Definition __doc__ : string :=
  nl ++ "AuthVital SDK for Python" ++ nl ++
  nl ++ "Official Python SDK for AuthVital Identity Platform." ++
  nl ++ "https://github.com/authvital/authvital" ++ nl ++
  nl ++ "Status: Coming Soon" ++ nl.

Definition __version__ : string := "0.0.1".

Definition __author__ : string := "AuthVital Contributors".

Definition __getattr__ (name : string) : M value :=
  raise (NotImplementedError
           (format [FText "AuthVital Python SDK is coming soon! "] name ++
            format [FText "Follow https://github.com/authvital/authvital for updates."] name)).

Definition __init__ : M unit :=
  bind (store "__doc__" (VStr __doc__)) (fun _ =>
  bind (store "__version__" (VStr __version__)) (fun _ =>
  bind (store "__author__" (VStr __author__)) (fun _ =>
  store "__getattr__" (VFunction authvital_getattr)))).

End authvital_sdk.

(** Calling a function object runs the code of its [def]. *)
Definition call (f : function) : string -> M value :=
  match f with
  | authvader_getattr => authvader_sdk.__getattr__
  | authvital_getattr => authvital_sdk.__getattr__
  end.

(** The namespace of a freshly created module, as the import system
    hands it to the module body. *)
Definition fresh_namespace (pkg : string) : gmap string value :=
  <["__name__" := VStr pkg]>
  (<["__doc__" := VNone]>
  (<["__package__" := VStr pkg]>
  (<["__loader__" := VObject "loader"]>
  (<["__spec__" := VObject "spec"]>
  (<["__path__" := VObject "path"]>
  (<["__file__" := VObject "file"]>
  (<["__cached__" := VObject "cached"]>
  (<["__builtins__" := VObject "builtins"]> ∅)))))))).

(** Outcomes that are a [NotImplementedError], whatever its message. *)
Definition raises_NotImplementedError {A} (r : result A) : bool :=
  match r with
  | Raise (NotImplementedError _) => true
  | _ => false
  end.

(** The class of an outcome: what is left of it when the message text of
    the exception is dropped. *)
Definition forget_message {A} (r : result A) : result A :=
  match r with
  | Raise (NotImplementedError _) => Raise (NotImplementedError "")
  | other => other
  end.

(** ** Running the model *)

Example authvader_version_access :
  module_getattro PyModule_Type call "__version__"
    (exec authvader_sdk.__init__ (fresh_namespace "authvader_sdk"))
  = (Return (VStr "0.0.1"),
     exec authvader_sdk.__init__ (fresh_namespace "authvader_sdk")).
Proof. vm_compute. reflexivity. Qed.

Example authvital_name_access :
  fst (module_getattro PyModule_Type call "__name__"
         (exec authvital_sdk.__init__ (fresh_namespace "authvital_sdk")))
  = Return (VStr "authvital_sdk").
Proof. vm_compute. reflexivity. Qed.

Example authvital_client_access :
  fst (module_getattro PyModule_Type call "Client"
         (exec authvital_sdk.__init__ (fresh_namespace "authvital_sdk")))
  = Raise (NotImplementedError
             "AuthVital Python SDK is coming soon! Follow https://github.com/authvital/authvital for updates.").
Proof. vm_compute. reflexivity. Qed.

Example authvader_annotations_access :
  module_getattro PyModule_Type call "__annotations__"
    (exec authvader_sdk.__init__ (fresh_namespace "authvader_sdk"))
  = (Return (VObject "{}"),
     <["__annotations__" := VObject "{}"]>
       (exec authvader_sdk.__init__ (fresh_namespace "authvader_sdk"))).
Proof. vm_compute. reflexivity. Qed.

Example no_handler_no_attribute :
  fst (module_getattro PyModule_Type call "Client" (fresh_namespace "empty"))
  = Raise (AttributeError "Client").
Proof. vm_compute. reflexivity. Qed.

(** ** f-strings without replacement fields *)

(** An f-string made of literal text only renders the same text in every
    local environment. *)
Lemma format_text_only {Env} (parts : list (fpart Env)) (env1 env2 : Env) :
  forallb is_text parts = true ->
  format parts env1 = format parts env2.
Proof.
  induction parts as [|p rest IH]; simpl; intros Htext.
  - reflexivity.
  - apply andb_prop in Htext as [Hp Hrest].
    destruct p as [s|e]; [|discriminate Hp].
    f_equal. apply IH, Hrest.
Qed.

(** ** The module bodies *)

Ltac unfold_body :=
  unfold exec, authvader_sdk.__init__, authvital_sdk.__init__, bind, store;
  simpl.

Lemma authvader_init_namespace (g : gmap string value) :
  exec authvader_sdk.__init__ g =
    <["__getattr__" := VFunction authvader_getattr]>
      (<["__author__" := VStr authvader_sdk.__author__]>
         (<["__version__" := VStr authvader_sdk.__version__]>
            (<["__doc__" := VStr authvader_sdk.__doc__]> g))).
Proof. unfold_body. reflexivity. Qed.

Lemma authvital_init_namespace (g : gmap string value) :
  exec authvital_sdk.__init__ g =
    <["__getattr__" := VFunction authvital_getattr]>
      (<["__author__" := VStr authvital_sdk.__author__]>
         (<["__version__" := VStr authvital_sdk.__version__]>
            (<["__doc__" := VStr authvital_sdk.__doc__]> g))).
Proof. unfold_body. reflexivity. Qed.

(** The body binds four names and leaves every other name as the import
    system set it. *)
Lemma authvader_init_frame (g : gmap string value) (k : string) :
  k ∉ ["__doc__"; "__version__"; "__author__"; "__getattr__"] ->
  exec authvader_sdk.__init__ g !! k = g !! k.
Proof.
  intros Hk. rewrite authvader_init_namespace.
  rewrite !lookup_insert_ne; [reflexivity|..]; intros <-; apply Hk; set_solver.
Qed.

Lemma authvital_init_frame (g : gmap string value) (k : string) :
  k ∉ ["__doc__"; "__version__"; "__author__"; "__getattr__"] ->
  exec authvital_sdk.__init__ g !! k = g !! k.
Proof.
  intros Hk. rewrite authvital_init_namespace.
  rewrite !lookup_insert_ne; [reflexivity|..]; intros <-; apply Hk; set_solver.
Qed.

Lemma authvader_init_handler (g : gmap string value) :
  exec authvader_sdk.__init__ g !! "__getattr__" = Some (VFunction authvader_getattr).
Proof. rewrite authvader_init_namespace. apply lookup_insert_eq. Qed.

Lemma authvital_init_handler (g : gmap string value) :
  exec authvital_sdk.__init__ g !! "__getattr__" = Some (VFunction authvital_getattr).
Proof. rewrite authvital_init_namespace. apply lookup_insert_eq. Qed.

(** ** Attribute access on a module that has a handler *)

Section getattro_with_handler.
Variable type_lookup : string -> option descr.
Variable c : function -> string -> M value.
Variable m : gmap string value.
Variable f : function.
Hypothesis Hhandler : m !! "__getattr__" = Some (VFunction f).

(** The namespace has the name: a value is returned and the namespace
    stays as it is. *)
Lemma getattro_in_namespace (name : string) :
  is_Some (m !! name) ->
  exists v, module_getattro type_lookup c name m = (Return v, m).
Proof.
  unfold module_getattro, generic_getattr. intros [v Hv]. rewrite Hv.
  destruct (type_lookup name) as [[get|init|get]|]; eauto.
Qed.

(** The type or the namespace has the name: the handler plays no part,
    whatever calling it would do. *)
Lemma getattro_without_handler
    (c' : function -> string -> M value) (name : string) :
  is_Some (m !! name) \/ is_Some (type_lookup name) ->
  module_getattro type_lookup c name m = module_getattro type_lookup c' name m.
Proof.
  unfold module_getattro, generic_getattr. intros Hfound.
  destruct (type_lookup name) as [[get|init|get]|];
    destruct (m !! name) as [v|]; try reflexivity.
  destruct Hfound as [[? H]|[? H]]; discriminate H.
Qed.

(** Neither has it: the handler is called with the name. *)
Lemma getattro_missing (name : string) :
  m !! name = None -> type_lookup name = None ->
  module_getattro type_lookup c name m = c f name m.
Proof.
  unfold module_getattro, generic_getattr.
  intros -> ->. rewrite Hhandler. reflexivity.
Qed.

(** What an access gives when the name is found, case by case. *)
Lemma getattro_found (name : string) :
  is_Some (m !! name) \/ is_Some (type_lookup name) ->
  (exists v,
     module_getattro type_lookup c name m = (Return v, m) /\
     (m !! name = Some v \/
      exists get,
        (type_lookup name = Some (DataDescr get) \/
         type_lookup name = Some (NonData get)) /\ v = get m)) \/
  (exists init,
     type_lookup name = Some (LazyData init) /\ m !! name = None /\
     module_getattro type_lookup c name m = (Return init, <[name := init]> m)).
Proof.
  unfold module_getattro, generic_getattr. intros Hfound.
  destruct (type_lookup name) as [[get|init|get]|] eqn:Ht;
    destruct (m !! name) as [v|] eqn:Hv.
  all: try (left; eexists; split; [reflexivity|]; eauto 8; fail).
  - right. exists init. auto.
  - destruct Hfound as [[? H]|[? H]]; discriminate H.
Qed.
End getattro_with_handler.

(** ** The handlers *)

Lemma authvader_getattr_eq (name : string) (g : gmap string value) :
  authvader_sdk.__getattr__ name g =
    (Raise (NotImplementedError
              "AuthVader Python SDK is coming soon! Follow https://github.com/authvader/authvader for updates."),
     g).
Proof. reflexivity. Qed.

Lemma authvital_getattr_eq (name : string) (g : gmap string value) :
  authvital_sdk.__getattr__ name g =
    (Raise (NotImplementedError
              "AuthVital Python SDK is coming soon! Follow https://github.com/authvital/authvital for updates."),
     g).
Proof. reflexivity. Qed.

(** C1: for every attribute name passed to it, the module-level
    [__getattr__] of [authvader_sdk] and of [authvital_sdk] raises
    [NotImplementedError] with the "coming soon" message, and for no
    input does it return a value. *)
Theorem C1_getattr_raises_NotImplementedError
    (name : string) (g : gmap string value) :
  authvader_sdk.__getattr__ name g =
    (Raise (NotImplementedError
              "AuthVader Python SDK is coming soon! Follow https://github.com/authvader/authvader for updates."),
     g) /\
  authvital_sdk.__getattr__ name g =
    (Raise (NotImplementedError
              "AuthVital Python SDK is coming soon! Follow https://github.com/authvital/authvital for updates."),
     g) /\
  (forall v g', authvader_sdk.__getattr__ name g <> (Return v, g')) /\
  (forall v g', authvital_sdk.__getattr__ name g <> (Return v, g')).
Proof.
  repeat split.
  - intros v g'. rewrite authvader_getattr_eq. discriminate.
  - intros v g'. rewrite authvital_getattr_eq. discriminate.
Qed.

(** C2: each package defines [__version__] and [__author__], and both are
    strings: after the module body has run, in whatever namespace the
    import system prepared, the two names are bound to string values, and
    attribute access on the module yields them. *)
Theorem C2_version_and_author_are_strings (g : gmap string value) :
  let vader := exec authvader_sdk.__init__ g in
  let vital := exec authvital_sdk.__init__ g in
  (vader !! "__version__" = Some (VStr "0.0.1") /\
   vader !! "__author__" = Some (VStr "AuthVader Contributors") /\
   vital !! "__version__" = Some (VStr "0.0.1") /\
   vital !! "__author__" = Some (VStr "AuthVital Contributors")) /\
  (module_getattro PyModule_Type call "__version__" vader
     = (Return (VStr "0.0.1"), vader) /\
   module_getattro PyModule_Type call "__author__" vader
     = (Return (VStr "AuthVader Contributors"), vader) /\
   module_getattro PyModule_Type call "__version__" vital
     = (Return (VStr "0.0.1"), vital) /\
   module_getattro PyModule_Type call "__author__" vital
     = (Return (VStr "AuthVital Contributors"), vital)).
Proof.
  intros vader vital.
  assert (Hbound :
    vader !! "__version__" = Some (VStr "0.0.1") /\
    vader !! "__author__" = Some (VStr "AuthVader Contributors") /\
    vital !! "__version__" = Some (VStr "0.0.1") /\
    vital !! "__author__" = Some (VStr "AuthVital Contributors")).
  { subst vader vital.
    rewrite authvader_init_namespace, authvital_init_namespace.
    repeat split; simplify_map_eq; reflexivity. }
  split; [exact Hbound|].
  destruct Hbound as (Hv1 & Ha1 & Hv2 & Ha2).
  unfold module_getattro, generic_getattr.
  change (PyModule_Type "__version__") with (@None descr).
  change (PyModule_Type "__author__") with (@None descr).
  rewrite Hv1, Ha1, Hv2, Ha2. repeat split.
Qed.

(** C5: the [NotImplementedError] that the handler of a package raises
    carries a fixed message: there is one message for [authvader_sdk] and
    one for [authvital_sdk] such that, for any two attribute names and in
    any two namespaces, the handler raises [NotImplementedError] with
    exactly that message and leaves the namespace as it is. The message
    is built from f-strings without a replacement field, so the requested
    name does not reach it, and two runs with different names have the
    same outcome. *)
Theorem C5_message_independent_of_name :
  exists msg_vader msg_vital : string,
    forall (name1 name2 : string) (g1 g2 : gmap string value),
      (authvader_sdk.__getattr__ name1 g1
         = (Raise (NotImplementedError msg_vader), g1) /\
       authvader_sdk.__getattr__ name2 g2
         = (Raise (NotImplementedError msg_vader), g2)) /\
      (authvital_sdk.__getattr__ name1 g1
         = (Raise (NotImplementedError msg_vital), g1) /\
       authvital_sdk.__getattr__ name2 g2
         = (Raise (NotImplementedError msg_vital), g2)) /\
      authvader_sdk.__getattr__ name1 g1 = authvader_sdk.__getattr__ name2 g1 /\
      authvital_sdk.__getattr__ name1 g1 = authvital_sdk.__getattr__ name2 g1.
Proof.
  exists (format [FText "AuthVader Python SDK is coming soon! "] "" ++
          format [FText "Follow https://github.com/authvader/authvader for updates."] ""),
         (format [FText "AuthVital Python SDK is coming soon! "] "" ++
          format [FText "Follow https://github.com/authvital/authvital for updates."] "").
  assert (Hvader : forall name g,
            authvader_sdk.__getattr__ name g
            = (Raise (NotImplementedError
                 (format [FText "AuthVader Python SDK is coming soon! "] "" ++
                  format [FText "Follow https://github.com/authvader/authvader for updates."] "")),
               g)).
  { intros name g. unfold authvader_sdk.__getattr__, raise.
    rewrite (format_text_only [FText "AuthVader Python SDK is coming soon! "]
               name "") by reflexivity.
    rewrite (format_text_only
               [FText "Follow https://github.com/authvader/authvader for updates."]
               name "") by reflexivity.
    reflexivity. }
  assert (Hvital : forall name g,
            authvital_sdk.__getattr__ name g
            = (Raise (NotImplementedError
                 (format [FText "AuthVital Python SDK is coming soon! "] "" ++
                  format [FText "Follow https://github.com/authvital/authvital for updates."] "")),
               g)).
  { intros name g. unfold authvital_sdk.__getattr__, raise.
    rewrite (format_text_only [FText "AuthVital Python SDK is coming soon! "]
               name "") by reflexivity.
    rewrite (format_text_only
               [FText "Follow https://github.com/authvital/authvital for updates."]
               name "") by reflexivity.
    reflexivity. }
  intros name1 name2 g1 g2.
  split; [split; apply Hvader|].
  split; [split; apply Hvital|].
  split.
  - rewrite (Hvader name1), (Hvader name2). reflexivity.
  - rewrite (Hvital name1), (Hvital name2). reflexivity.
Qed.

(** C6: the two handlers are equivalent up to the text of the message:
    there are two fixed, different messages such that for every name and
    every namespace both handlers raise [NotImplementedError], each with
    its own message, both leave the namespace as it was, and with the
    message dropped their outcomes are equal. *)
Theorem C6_handlers_equivalent_up_to_message :
  exists msg_vader msg_vital : string,
    msg_vader <> msg_vital /\
    forall (name : string) (g : gmap string value),
      authvader_sdk.__getattr__ name g
        = (Raise (NotImplementedError msg_vader), g) /\
      authvital_sdk.__getattr__ name g
        = (Raise (NotImplementedError msg_vital), g) /\
      forget_message (fst (authvader_sdk.__getattr__ name g))
        = forget_message (fst (authvital_sdk.__getattr__ name g)) /\
      snd (authvader_sdk.__getattr__ name g)
        = snd (authvital_sdk.__getattr__ name g).
Proof.
  exists "AuthVader Python SDK is coming soon! Follow https://github.com/authvader/authvader for updates.",
         "AuthVital Python SDK is coming soon! Follow https://github.com/authvital/authvital for updates.".
  split; [discriminate|].
  intros name g.
  rewrite authvader_getattr_eq, authvital_getattr_eq.
  repeat split.
Qed.

(** ** Attribute access on a module whose handler always raises *)

Section getattro_with_raising_handler.
Variable type_lookup : string -> option descr.
Variable m : gmap string value.
Variable f : function.
Variable msg : string.
Hypothesis Hhandler : m !! "__getattr__" = Some (VFunction f).
Hypothesis Hraises :
  forall name g, call f name g = (Raise (NotImplementedError msg), g).

Lemma getattro_raises_iff (name : string) :
  raises_NotImplementedError
    (fst (module_getattro type_lookup call name m)) = true <->
  m !! name = None /\ type_lookup name = None.
Proof.
  split.
  - intros Hraise.
    destruct (decide (is_Some (m !! name) \/ is_Some (type_lookup name)))
      as [Hfound|Hnot].
    + destruct (getattro_found type_lookup call m name Hfound)
        as [(v & Hv & _)|(init & _ & _ & Hv)];
        rewrite Hv in Hraise; discriminate Hraise.
    + split; apply eq_None_not_Some; intros Hsome; apply Hnot; auto.
  - intros [Hm Ht].
    rewrite (getattro_missing type_lookup call m f Hhandler name Hm Ht).
    rewrite Hraises. reflexivity.
Qed.

(** Every access either raises the handler's [NotImplementedError], or
    returns what the namespace or the type has for the name, or returns
    the value that a lazy data descriptor of the type has just stored
    under the name. Only the last one writes the namespace. *)
Lemma getattro_outcomes (name : string) :
  (module_getattro type_lookup call name m
     = (Raise (NotImplementedError msg), m) /\
   m !! name = None /\ type_lookup name = None) \/
  (exists v,
     module_getattro type_lookup call name m = (Return v, m) /\
     (m !! name = Some v \/
      exists get,
        (type_lookup name = Some (DataDescr get) \/
         type_lookup name = Some (NonData get)) /\ v = get m)) \/
  (exists init,
     type_lookup name = Some (LazyData init) /\ m !! name = None /\
     module_getattro type_lookup call name m
       = (Return init, <[name := init]> m)).
Proof.
  destruct (decide (is_Some (m !! name) \/ is_Some (type_lookup name)))
    as [Hfound|Hnot].
  - right. apply getattro_found, Hfound.
  - assert (Hm : m !! name = None).
    { apply eq_None_not_Some. intros Hsome. apply Hnot. left. exact Hsome. }
    assert (Ht : type_lookup name = None).
    { apply eq_None_not_Some. intros Hsome. apply Hnot. right. exact Hsome. }
    left. split; [|split; assumption].
    rewrite (getattro_missing type_lookup call m f Hhandler name Hm Ht).
    apply Hraises.
Qed.
End getattro_with_raising_handler.

(** ** What the modules show at their interface *)

(** C3, as stated, fails: reading [__doc__] of [authvader_sdk] yields the
    docstring, which is neither the version string, nor the author
    string, nor a [NotImplementedError]. *)
Lemma C3_docstring_is_observable :
  let m := exec authvader_sdk.__init__ (fresh_namespace "authvader_sdk") in
  ~ (forall name : string,
       module_getattro PyModule_Type call name m
         = (Return (VStr authvader_sdk.__version__), m) \/
       module_getattro PyModule_Type call name m
         = (Return (VStr authvader_sdk.__author__), m) \/
       raises_NotImplementedError
         (fst (module_getattro PyModule_Type call name m)) = true).
Proof.
  intros m Hall.
  assert (Hdoc : module_getattro PyModule_Type call "__doc__" m
                 = (Return (VStr authvader_sdk.__doc__), m)).
  { unfold module_getattro, generic_getattr.
    change (PyModule_Type "__doc__")
      with (Some (NonData (fun _ => VObject "the docstring of the module type"))).
    subst m. rewrite authvader_init_namespace.
    rewrite !lookup_insert_ne by discriminate.
    rewrite lookup_insert_eq. reflexivity. }
  destruct (Hall "__doc__") as [H|[H|H]]; rewrite Hdoc in H.
  - vm_compute in H. discriminate H.
  - vm_compute in H. discriminate H.
  - discriminate H.
Qed.

(** C3, amended: the module body of either package binds four names to
    constants (the docstring, the version string, the author string and
    the handler) and leaves every other name as it found it; the handler
    raises [NotImplementedError] and leaves the namespace as it is; and
    an attribute access on the module has one of three outcomes. It
    raises that [NotImplementedError], namespace unchanged, when neither
    the namespace nor the module type has the name; it returns the value
    that the namespace or the module type has for the name, namespace
    unchanged; or, for a name that the module type creates on first use
    and the namespace does not have yet ([__annotations__]), it returns
    the new value and the namespace gains that one name. *)
Theorem C3_only_bound_values_or_NotImplementedError
    (type_lookup : string -> option descr) (g : gmap string value)
    (name : string) :
  let vader := exec authvader_sdk.__init__ g in
  let vital := exec authvital_sdk.__init__ g in
  (vader !! "__doc__" = Some (VStr authvader_sdk.__doc__) /\
   vader !! "__version__" = Some (VStr "0.0.1") /\
   vader !! "__author__" = Some (VStr "AuthVader Contributors") /\
   vader !! "__getattr__" = Some (VFunction authvader_getattr) /\
   (name ∉ ["__doc__"; "__version__"; "__author__"; "__getattr__"] ->
    vader !! name = g !! name)) /\
  (vital !! "__doc__" = Some (VStr authvital_sdk.__doc__) /\
   vital !! "__version__" = Some (VStr "0.0.1") /\
   vital !! "__author__" = Some (VStr "AuthVital Contributors") /\
   vital !! "__getattr__" = Some (VFunction authvital_getattr) /\
   (name ∉ ["__doc__"; "__version__"; "__author__"; "__getattr__"] ->
    vital !! name = g !! name)) /\
  (authvader_sdk.__getattr__ name vader =
     (Raise (NotImplementedError
               "AuthVader Python SDK is coming soon! Follow https://github.com/authvader/authvader for updates."),
      vader) /\
   authvital_sdk.__getattr__ name vital =
     (Raise (NotImplementedError
               "AuthVital Python SDK is coming soon! Follow https://github.com/authvital/authvital for updates."),
      vital)) /\
  ((module_getattro type_lookup call name vader =
      (Raise (NotImplementedError
                "AuthVader Python SDK is coming soon! Follow https://github.com/authvader/authvader for updates."),
       vader) /\
    vader !! name = None /\ type_lookup name = None) \/
   (exists v,
      module_getattro type_lookup call name vader = (Return v, vader) /\
      (vader !! name = Some v \/
       exists get,
         (type_lookup name = Some (DataDescr get) \/
          type_lookup name = Some (NonData get)) /\ v = get vader)) \/
   (exists init,
      type_lookup name = Some (LazyData init) /\ vader !! name = None /\
      module_getattro type_lookup call name vader
        = (Return init, <[name := init]> vader))) /\
  ((module_getattro type_lookup call name vital =
      (Raise (NotImplementedError
                "AuthVital Python SDK is coming soon! Follow https://github.com/authvital/authvital for updates."),
       vital) /\
    vital !! name = None /\ type_lookup name = None) \/
   (exists v,
      module_getattro type_lookup call name vital = (Return v, vital) /\
      (vital !! name = Some v \/
       exists get,
         (type_lookup name = Some (DataDescr get) \/
          type_lookup name = Some (NonData get)) /\ v = get vital)) \/
   (exists init,
      type_lookup name = Some (LazyData init) /\ vital !! name = None /\
      module_getattro type_lookup call name vital
        = (Return init, <[name := init]> vital))).
Proof.
  intros vader vital.
  split; [|split; [|split; [|split]]].
  - subst vader. split; [|split; [|split; [|split]]].
    + rewrite authvader_init_namespace. by simplify_map_eq.
    + rewrite authvader_init_namespace. by simplify_map_eq.
    + rewrite authvader_init_namespace. by simplify_map_eq.
    + apply authvader_init_handler.
    + apply authvader_init_frame.
  - subst vital. split; [|split; [|split; [|split]]].
    + rewrite authvital_init_namespace. by simplify_map_eq.
    + rewrite authvital_init_namespace. by simplify_map_eq.
    + rewrite authvital_init_namespace. by simplify_map_eq.
    + apply authvital_init_handler.
    + apply authvital_init_frame.
  - split; [apply authvader_getattr_eq|apply authvital_getattr_eq].
  - apply (getattro_outcomes type_lookup vader authvader_getattr).
    + apply authvader_init_handler.
    + intros n g'. apply authvader_getattr_eq.
  - apply (getattro_outcomes type_lookup vital authvital_getattr).
    + apply authvital_init_handler.
    + intros n g'. apply authvital_getattr_eq.
Qed.

(** C4, as stated, fails: [__class__] is not a name of the namespace of
    [authvader_sdk], and yet reading it raises nothing, because the type
    of module objects supplies it before the handler is asked. *)
Lemma C4_type_attribute_does_not_raise :
  let m := exec authvader_sdk.__init__ (fresh_namespace "authvader_sdk") in
  ~ (forall name : string,
       raises_NotImplementedError
         (fst (module_getattro PyModule_Type call name m)) = true <->
       m !! name = None).
Proof.
  intros m Hall.
  assert (Hmissing : m !! "__class__" = None).
  { subst m. rewrite authvader_init_namespace.
    rewrite !lookup_insert_ne by discriminate.
    vm_compute. reflexivity. }
  apply (Hall "__class__") in Hmissing.
  unfold module_getattro, generic_getattr in Hmissing.
  change (PyModule_Type "__class__")
    with (Some (DataDescr (fun _ => VObject "<class 'module'>"))) in Hmissing.
  discriminate Hmissing.
Qed.

(** C4, amended: at the interface of either module an attribute access
    raises [NotImplementedError] if and only if the name is neither in the
    module namespace nor supplied by the type of module objects. A name
    that the namespace has, such as [__version__], is read without an
    exception and without a change to the namespace, and whenever the
    namespace or the type has the name the handler is not consulted: the
    outcome is the same whatever calling a handler would do. *)
Theorem C4_raises_iff_name_not_found
    (type_lookup : string -> option descr) (g : gmap string value)
    (name : string) :
  let vader := exec authvader_sdk.__init__ g in
  let vital := exec authvital_sdk.__init__ g in
  (raises_NotImplementedError
     (fst (module_getattro type_lookup call name vader)) = true <->
   vader !! name = None /\ type_lookup name = None) /\
  (raises_NotImplementedError
     (fst (module_getattro type_lookup call name vital)) = true <->
   vital !! name = None /\ type_lookup name = None) /\
  (is_Some (vader !! name) ->
   exists v, module_getattro type_lookup call name vader = (Return v, vader)) /\
  (is_Some (vital !! name) ->
   exists v, module_getattro type_lookup call name vital = (Return v, vital)) /\
  (exists v,
     module_getattro type_lookup call "__version__" vader = (Return v, vader)) /\
  (exists v,
     module_getattro type_lookup call "__version__" vital = (Return v, vital)) /\
  (forall c1 c2 : function -> string -> M value,
     is_Some (vader !! name) \/ is_Some (type_lookup name) ->
     module_getattro type_lookup c1 name vader
       = module_getattro type_lookup c2 name vader) /\
  (forall c1 c2 : function -> string -> M value,
     is_Some (vital !! name) \/ is_Some (type_lookup name) ->
     module_getattro type_lookup c1 name vital
       = module_getattro type_lookup c2 name vital).
Proof.
  intros vader vital.
  assert (Hfound : forall (c : function -> string -> M value) m n,
            is_Some (m !! n) ->
            exists v, module_getattro type_lookup c n m = (Return v, m)).
  { intros c m n H. apply getattro_in_namespace, H. }
  assert (Hsame : forall (c1 c2 : function -> string -> M value) m n,
            is_Some (m !! n) \/ is_Some (type_lookup n) ->
            module_getattro type_lookup c1 n m
              = module_getattro type_lookup c2 n m).
  { intros c1 c2 m n H. apply getattro_without_handler, H. }
  split; [|split; [|split; [|split; [|split; [|split; [|split]]]]]].
  - apply (getattro_raises_iff type_lookup vader authvader_getattr
             "AuthVader Python SDK is coming soon! Follow https://github.com/authvader/authvader for updates.").
    + apply authvader_init_handler.
    + intros n g'. apply authvader_getattr_eq.
  - apply (getattro_raises_iff type_lookup vital authvital_getattr
             "AuthVital Python SDK is coming soon! Follow https://github.com/authvital/authvital for updates.").
    + apply authvital_init_handler.
    + intros n g'. apply authvital_getattr_eq.
  - intros H. apply Hfound. exact H.
  - intros H. apply Hfound. exact H.
  - apply Hfound. subst vader.
    rewrite authvader_init_namespace. simplify_map_eq. eauto.
  - apply Hfound. subst vital.
    rewrite authvital_init_namespace. simplify_map_eq. eauto.
  - intros c1 c2. apply Hsame.
  - intros c1 c2. apply Hsame.
Qed.

(** ** Running a module body again *)

(** A module body assigns constants to its four names without reading
    the namespace: two namespaces that agree on every other name are
    taken to the same namespace. *)
Lemma authvader_init_agree (g1 g2 : gmap string value) :
  (forall k, k ∉ ["__doc__"; "__version__"; "__author__"; "__getattr__"] ->
             g1 !! k = g2 !! k) ->
  exec authvader_sdk.__init__ g1 = exec authvader_sdk.__init__ g2.
Proof.
  intros Hagree. apply map_eq. intros k.
  destruct (decide (k ∈ ["__doc__"; "__version__"; "__author__"; "__getattr__"]))
    as [Hin|Hout].
  - rewrite !authvader_init_namespace.
    repeat (apply elem_of_cons in Hin as [->|Hin]; [by simplify_map_eq|]).
    by apply elem_of_nil in Hin.
  - rewrite !authvader_init_frame by exact Hout. apply Hagree, Hout.
Qed.

Lemma authvital_init_agree (g1 g2 : gmap string value) :
  (forall k, k ∉ ["__doc__"; "__version__"; "__author__"; "__getattr__"] ->
             g1 !! k = g2 !! k) ->
  exec authvital_sdk.__init__ g1 = exec authvital_sdk.__init__ g2.
Proof.
  intros Hagree. apply map_eq. intros k.
  destruct (decide (k ∈ ["__doc__"; "__version__"; "__author__"; "__getattr__"]))
    as [Hin|Hout].
  - rewrite !authvital_init_namespace.
    repeat (apply elem_of_cons in Hin as [->|Hin]; [by simplify_map_eq|]).
    by apply elem_of_nil in Hin.
  - rewrite !authvital_init_frame by exact Hout. apply Hagree, Hout.
Qed.

(** X2: the namespace that the body of either [__init__.py] leaves behind
    does not depend on what [__doc__], [__version__], [__author__] and
    [__getattr__] were bound to before: started in two namespaces that
    agree on all other names, it ends in the same namespace. *)
Theorem X2_init_ignores_previous_bindings (g1 g2 : gmap string value) :
  (forall k, k ∉ ["__doc__"; "__version__"; "__author__"; "__getattr__"] ->
             g1 !! k = g2 !! k) ->
  exec authvader_sdk.__init__ g1 = exec authvader_sdk.__init__ g2 /\
  exec authvital_sdk.__init__ g1 = exec authvital_sdk.__init__ g2.
Proof.
  intros Hagree. split.
  - apply authvader_init_agree, Hagree.
  - apply authvital_init_agree, Hagree.
Qed.

(** A patched [__version__] and a removed handler are both put right by
    running the body again. *)
Lemma X2_init_ignores_previous_bindings_witness :
  exec authvader_sdk.__init__
    (<["__version__" := VStr "9.9.9"]>
       (delete "__getattr__" (fresh_namespace "authvader_sdk")))
  = exec authvader_sdk.__init__ (fresh_namespace "authvader_sdk") /\
  exec authvital_sdk.__init__
    (<["__version__" := VStr "9.9.9"]>
       (delete "__getattr__" (fresh_namespace "authvader_sdk")))
  = exec authvital_sdk.__init__ (fresh_namespace "authvader_sdk").
Proof.
  apply X2_init_ignores_previous_bindings.
  intros k Hk.
  rewrite lookup_insert_ne by (intros <-; apply Hk; set_solver).
  rewrite lookup_delete_ne by (intros <-; apply Hk; set_solver).
  reflexivity.
Defined.
